(** * django_typomatic: the serializer registry and the TypeScript generator

    A shallow embedding of [django_typomatic/__init__.py].  The module keeps
    one process-wide dictionary [__serializers] (context name to the list of
    registered serializer classes), a class decorator [ts_interface] that
    fills it, and [generate_ts], which renders every class of one context as
    an [export interface] block and writes the blocks to a file.

    Python state is threaded explicitly: a computation is a function from a
    [world] (the module dictionary and the files on disk) to the world it
    leaves behind and either a value or the exception it raised. *)

From Stdlib Require Import Ascii String.
From stdpp Require Import gmap strings list.

Set Warnings "-register-all".

(** ** Class objects and field instances *)

(** Where a class stands with respect to the two framework classes the module
    tests with [issubclass].  [rest_framework] declares
    [class ModelSerializer(Serializer)], so a model serializer is a
    serializer too. *)
Inductive lineage : Set :=
  | PlainClass
  | SerializerClass
  | ModelSerializerClass.

Inductive framework_base : Set :=
  | Serializer
  | ModelSerializer.

(** A Python class object.  [cls_id] is the identity of the object: two
    classes may carry the same [__name__] and still be different objects.
    Python compares classes by identity ([in] on a list, keys of a [dict]),
    which is equality of these records. *)
Record class : Set := Class {
  cls_id : positive;
  __name__ : string;
  lineage_of : lineage
}.

Definition issubclass (cls : class) (base : framework_base) : bool :=
  match base, lineage_of cls with
  | Serializer, (SerializerClass | ModelSerializerClass) => true
  | ModelSerializer, ModelSerializerClass => true
  | _, _ => false
  end.

(** A field instance (serializers are fields as well): its class, and the
    [child] attribute when the instance has one ([ListField],
    [ListSerializer], that is [many=True], ...). *)
Inductive field : Set := Field {
  type_of : class;
  child : option field
}.

(** [hasattr(field, 'child')] *)
Definition hasattr_child (f : field) : bool :=
  match child f with
  | Some _ => true
  | None => false
  end.

(** [serializer()]: a fresh instance of a serializer class. *)
Definition instantiate (cls : class) : field :=
  {| type_of := cls; child := None |}.

Global Instance lineage_eq_dec : EqDecision lineage.
Proof. solve_decision. Defined.

Global Instance class_eq_dec : EqDecision class.
Proof. solve_decision. Defined.

Definition lineage_code (l : lineage) : nat :=
  match l with
  | PlainClass => 0
  | SerializerClass => 1
  | ModelSerializerClass => 2
  end.

Definition lineage_decode (n : nat) : lineage :=
  match n with
  | 0 => PlainClass
  | 1 => SerializerClass
  | _ => ModelSerializerClass
  end.

Global Instance lineage_countable : Countable lineage.
Proof.
  refine (inj_countable' lineage_code lineage_decode _).
  intros l. destruct l; reflexivity.
Defined.

Global Instance class_countable : Countable class.
Proof.
  refine (inj_countable'
            (fun c => (cls_id c, __name__ c, lineage_of c))
            (fun t => Class t.1.1 t.1.2 t.2) _).
  intros c. destruct c; reflexivity.
Defined.

(** ** Strings *)

(** The line feed, ['\n']. *)
Definition nl : string := String "010"%char EmptyString.

(** [sep.join(parts)] *)
Fixpoint join (sep : string) (parts : list string) : string :=
  match parts with
  | [] => EmptyString
  | [p] => p
  | p :: rest => p +:+ sep +:+ join sep rest
  end.

(** ** Worlds, exceptions and computations *)

Inductive exn : Set :=
  | KeyError (key : string)
  | OSError (path : string).

Inductive outcome (A : Type) : Type :=
  | Return (a : A)
  | Raise (e : exn).

Arguments Return {A} a.
Arguments Raise {A} e.

(** [__serializers] is the module dictionary.  [files] holds the content of
    every file that exists; [locked] holds the paths that [open(path, 'w')]
    refuses (missing directory, permissions, ...). *)
Record world : Type := World {
  __serializers : gmap string (list class);
  files : gmap string string;
  locked : gset string
}.

Definition M (A : Type) : Type := world -> world * outcome A.

Definition ret {A : Type} (a : A) : M A :=
  fun w => (w, Return a).

Definition raise {A : Type} (e : exn) : M A :=
  fun w => (w, Raise e).

(** Sequencing: an exception skips what follows; the world reached when it
    was raised stays. *)
Definition bind {A B : Type} (m : M A) (k : A -> M B) : M B :=
  fun w =>
    match m w with
    | (w', Return a) => k a w'
    | (w', Raise e) => (w', Raise e)
    end.

Notation "x <- m ;; k" := (bind m (fun x => k))
  (at level 100, m at next level, right associativity).

(** [try: body finally: cleanup] *)
Definition finally {A : Type} (body : M A) (cleanup : M unit) : M A :=
  fun w =>
    match body w with
    | (w', r) =>
        match cleanup w' with
        | (w'', Return _) => (w'', r)
        | (w'', Raise e) => (w'', Raise e)
        end
    end.

(** [for x in xs: body], with the variables the body updates passed along. *)
Fixpoint for_each {A S : Type} (xs : list A) (body : A -> S -> M S) (acc : S)
  : M S :=
  match xs with
  | [] => ret acc
  | x :: rest => acc' <- body x acc ;; for_each rest body acc'
  end.

(** [[f(x) for x in xs]] *)
Fixpoint comprehension {A B : Type} (f : A -> M B) (xs : list A)
  : M (list B) :=
  match xs with
  | [] => ret []
  | x :: rest =>
      y <- f x ;;
      ys <- comprehension f rest ;;
      ret (y :: ys)
  end.

(** *** The module dictionary *)

(** [context in __serializers] *)
Definition serializers_contains (context : string) : M bool :=
  fun w => (w, Return (bool_decide (is_Some (__serializers w !! context)))).

(** [__serializers[context]]: a missing key raises [KeyError]. *)
Definition serializers_getitem (context : string) : M (list class) :=
  fun w =>
    match __serializers w !! context with
    | Some registered => ret registered w
    | None => raise (KeyError context) w
    end.

(** [__serializers[context] = value] *)
Definition serializers_setitem (context : string) (value : list class)
  : M unit :=
  fun w =>
    (World (<[context := value]> (__serializers w)) (files w) (locked w),
     Return tt).

(** [__serializers[context].append(cls)] *)
Definition serializers_append (context : string) (cls : class) : M unit :=
  registered <- serializers_getitem context ;;
  serializers_setitem context (registered ++ [cls]).

(** *** Files *)

(** [open(path, 'w')]: fails on a path that cannot be opened; otherwise the
    file exists and is empty from here on.  The handle is the path. *)
Definition open_w (path : string) : M string :=
  fun w =>
    if bool_decide (path ∈ locked w)
    then raise (OSError path) w
    else ret path (World (__serializers w)
                         (<[path := EmptyString]> (files w))
                         (locked w)).

(** [output_file.write(text)] *)
Definition file_write (handle : string) (text : string) : M unit :=
  fun w =>
    (World (__serializers w)
           (<[handle := default EmptyString (files w !! handle) +:+ text]>
              (files w))
           (locked w),
     Return tt).

(** Leaving the [with] block closes the file; the content is already in
    [files]. *)
Definition file_close (handle : string) : M unit := ret tt.

(** [with open(path, 'w') as output_file: body] *)
Definition with_open_w {A : Type} (path : string) (body : string -> M A)
  : M A :=
  output_file <- open_w path ;;
  finally (body output_file) (file_close output_file).

(** ** Sample classes

    The classes of the example in the documentation, together with the
    framework field classes they use, and a few more for the other
    properties. *)

Definition IntegerField : class := Class 1 "IntegerField" PlainClass.
Definition CharField : class := Class 2 "CharField" PlainClass.
Definition ListField : class := Class 3 "ListField" PlainClass.
Definition ListSerializer : class := Class 4 "ListSerializer" PlainClass.
(** A field class the application defines itself. *)
Definition ColorField : class := Class 5 "ColorField" PlainClass.

Definition Foo : class := Class 10 "Foo" SerializerClass.
Definition Bar : class := Class 11 "Bar" SerializerClass.
Definition Baz : class := Class 12 "Baz" SerializerClass.
Definition Qux : class := Class 13 "Qux" SerializerClass.
Definition Account : class := Class 15 "Account" ModelSerializerClass.

(** A second class object that is also called [Foo]. *)
Definition OtherFoo : class := Class 14 "Foo" SerializerClass.

(** [IntegerField()], [CharField()], [ListField(child=CharField())],
    [Foo()], [Foo(many=True)], [Qux()], [Qux(many=True)]. *)
Definition an_integer : field := Field IntegerField None.
Definition a_char : field := Field CharField None.
Definition a_char_list : field := Field ListField (Some a_char).
Definition a_color : field := Field ColorField None.
Definition a_foo : field := Field Foo None.
Definition many_foo : field := Field ListSerializer (Some a_foo).
Definition a_qux : field := Field Qux None.
Definition many_qux : field := Field ListSerializer (Some a_qux).

(** Two rows of a mapping table, those the documented example needs. *)
Definition sample_mappings : gmap class string :=
  {[ IntegerField := "number"%string; CharField := "string"%string ]}.

Definition sample_declared_fields (cls : class) : list (string * field) :=
  if decide (cls = Foo) then [("id"%string, an_integer)]
  else if decide (cls = Bar)
       then [("foo"%string, a_foo); ("tags"%string, a_char_list)]
  else if decide (cls = Baz) then [("foos"%string, many_foo)]
  else [].

Definition sample_get_fields (instance : field) : list (string * field) :=
  if decide (type_of instance = Account)
  then [("id"%string, an_integer); ("email"%string, a_char)]
  else sample_declared_fields (type_of instance).

(** Nothing registered; [out.ts] exists with some earlier content. *)
Definition fresh_world : world :=
  World ∅ {[ "out.ts"%string := "// stale"%string ]} ∅.

(** [Foo], [Bar], [Baz] and [Account] registered under [default], [Qux]
    under [other]; [out.ts] exists, [/proc/out.ts] cannot be opened. *)
Definition sample_world : world :=
  World {[ "default"%string := [Foo; Bar; Baz; Account];
           "other"%string := [Qux] ]}
        {[ "out.ts"%string := "// stale"%string ]}
        {[ "/proc/out.ts"%string ]}.

(** [sample_world] with [Bar] registered before [Foo]. *)
Definition reordered_world : world :=
  World {[ "default"%string := [Bar; Foo; Baz; Account];
           "other"%string := [Qux] ]}
        ∅ ∅.

(** [ListField(child=ListField(child=CharField()))] *)
Definition a_char_matrix : field := Field ListField (Some a_char_list).

(** A serializer class without fields. *)
Definition Empty : class := Class 16 "Empty" SerializerClass.

(** The text of the documented example. *)
Definition example_text : string :=
  "export interface Foo {" +:+ nl +:+
  "    id: number;" +:+ nl +:+
  "}" +:+ nl +:+
  nl +:+
  "export interface Bar {" +:+ nl +:+
  "    foo: Foo;" +:+ nl +:+
  "    tags: string[];" +:+ nl +:+
  "}" +:+ nl +:+
  nl.

(** ** The module *)

Section Typomatic.

(** [from .mappings import mappings]: the table from field classes to
    TypeScript type names.  It lives in [mappings.py]; the functions below
    only call [mappings.get]. *)
Context (mappings : gmap class string).

(** The field enumeration of [rest_framework]:
    [serializer._declared_fields.items()] on a class and
    [instance.get_fields().items()] on an instance, as the ordered
    (name, field) pairs. *)
Context (_declared_fields : class -> list (string * field)).
Context (get_fields : field -> list (string * field)).

(** [ts_interface(context)(cls)] *)
Definition ts_interface (context : string) (cls : class) : M class :=
  _ <- (if issubclass cls Serializer
        then
          known <- serializers_contains context ;;
          _ <- (if negb known
                then serializers_setitem context []
                else ret tt) ;;
          serializers_append context cls
        else ret tt) ;;
  ret cls.

(** [is_many and type(field.child) or type(field)]; a class object is
    always true, so the [and] yields the child's class when there is a
    child. *)
Definition field_type_of (f : field) : class :=
  match child f with
  | Some c => type_of c
  | None => type_of f
  end.

Definition __process_field (field_name : string) (f : field)
    (context : string) : M (string * string) :=
  let is_many := hasattr_child f in
  let field_type := field_type_of f in
  registered <- serializers_getitem context ;;
  let ts_type :=
    if bool_decide (field_type ∈ registered)
    then __name__ field_type
    else default "any"%string (mappings !! field_type) in
  let ts_type := if is_many then ts_type +:+ "[]" else ts_type in
  ret (field_name, ts_type).

(** [f"    {ts_field[0]}: {ts_field[1]};"] *)
Definition ts_field_line (ts_field : string * string) : string :=
  "    " +:+ ts_field.1 +:+ ": " +:+ ts_field.2 +:+ ";".

(** [f'export interface {name} {{\n{collapsed_fields}\n}}\n\n'] *)
Definition ts_block (name collapsed_fields : string) : string :=
  "export interface " +:+ name +:+ " {" +:+ nl +:+ collapsed_fields
    +:+ nl +:+ "}" +:+ nl +:+ nl.

(** The call to [_LOG.debug] changes nothing the module reads and is left
    out. *)
Definition __get_ts_interface (serializer : class) (context : string)
    : M string :=
  let name := __name__ serializer in
  let fields :=
    if issubclass serializer ModelSerializer
    then
      let instance := instantiate serializer in
      get_fields instance
    else _declared_fields serializer in
  ts_fields <-
    for_each fields
      (fun kv ts_fields =>
         ts_field <- __process_field kv.1 kv.2 context ;;
         ret (ts_fields ++ [ts_field_line ts_field]))
      [] ;;
  let collapsed_fields := join nl ts_fields in
  ret (ts_block name collapsed_fields).

Definition generate_ts (output_path : string) (context : string) : M unit :=
  with_open_w output_path (fun output_file =>
    registered <- serializers_getitem context ;;
    interfaces <-
      comprehension
        (fun serializer => __get_ts_interface serializer context)
        registered ;;
    file_write output_file (join EmptyString interfaces)).

(** *** What the renderer computes once the context is known *)

(** The fields [__get_ts_interface] walks over. *)
Definition enumerated_fields (serializer : class)
    : list (string * field) :=
  if issubclass serializer ModelSerializer
  then get_fields (instantiate serializer)
  else _declared_fields serializer.

(** The type [__process_field] gives a field when [registered] is the
    list of the context. *)
Definition resolved_type (registered : list class) (f : field) : string :=
  let ts_type :=
    if bool_decide (field_type_of f ∈ registered)
    then __name__ (field_type_of f)
    else default "any"%string (mappings !! field_type_of f) in
  if hasattr_child f then ts_type +:+ "[]" else ts_type.

Definition rendered_line (registered : list class) (kv : string * field)
    : string :=
  ts_field_line (kv.1, resolved_type registered kv.2).

Definition rendered_block (registered : list class) (serializer : class)
    : string :=
  ts_block (__name__ serializer)
    (join nl (map (rendered_line registered)
                  (enumerated_fields serializer))).

Definition rendered_text (registered : list class) : string :=
  join EmptyString (map (rendered_block registered) registered).

(** The shape of a dictionary that only [ts_interface] has written to: no
    context holds an empty list, and the lists hold subclasses of
    [Serializer] only. *)
Definition registry_ok (registry : gmap string (list class)) : Prop :=
  ∀ (context : string) (registered : list class),
    registry !! context = Some registered →
    registered ≠ []
    ∧ Forall (fun cls => issubclass cls Serializer = true) registered.

(** ** Properties *)

(** *** Sequencing *)

Lemma bind_Return {A B : Type} (m : M A) (k : A -> M B) (w w' : world)
    (a : A) :
  m w = (w', Return a) → bind m k w = k a w'.
Proof. intros Hm. unfold bind. rewrite Hm. reflexivity. Qed.

Lemma bind_Raise {A B : Type} (m : M A) (k : A -> M B) (w w' : world)
    (e : exn) :
  m w = (w', Raise e) → bind m k w = (w', Raise e).
Proof. intros Hm. unfold bind. rewrite Hm. reflexivity. Qed.

(** *** Loops whose body leaves the world alone *)

Lemma for_each_pure {A S : Type} (xs : list A) (body : A -> S -> M S)
    (step : S -> A -> S) (acc : S) (w : world) :
  (∀ x a, body x a w = (w, Return (step a x))) →
  for_each xs body acc w = (w, Return (foldl step acc xs)).
Proof.
  intros Hbody. revert acc.
  induction xs as [|x rest IH]; intros acc; simpl.
  - reflexivity.
  - unfold bind. rewrite Hbody. apply IH.
Qed.

Lemma comprehension_pure {A B : Type} (f : A -> M B) (g : A -> B)
    (xs : list A) (w : world) :
  (∀ x, f x w = (w, Return (g x))) →
  comprehension f xs w = (w, Return (map g xs)).
Proof.
  intros Hf.
  induction xs as [|x rest IH]; simpl.
  - reflexivity.
  - unfold bind. rewrite Hf. unfold bind in IH. rewrite IH. reflexivity.
Qed.

Lemma foldl_append_line {A : Type} (line : A -> string) (xs : list A)
    (acc : list string) :
  foldl (fun ts_fields x => ts_fields ++ [line x]) acc xs
  = acc ++ map line xs.
Proof.
  revert acc.
  induction xs as [|x rest IH]; intros acc; simpl.
  - symmetry. apply app_nil_r.
  - rewrite IH. rewrite <- app_assoc. reflexivity.
Qed.

(** *** The decorator *)

Lemma ts_interface_new_context (context : string) (cls : class)
    (w : world) :
  issubclass cls Serializer = true →
  __serializers w !! context = None →
  ts_interface context cls w
  = (World (<[context := [cls]]> (__serializers w)) (files w) (locked w),
     Return cls).
Proof.
  intros Hsub Hnew.
  unfold ts_interface, bind. rewrite Hsub.
  unfold serializers_contains. rewrite Hnew. simpl.
  unfold serializers_append, bind, serializers_getitem,
    serializers_setitem.
  simpl. rewrite lookup_insert_eq. simpl.
  rewrite insert_insert_eq. reflexivity.
Qed.

Lemma ts_interface_known_context (context : string) (cls : class)
    (registered : list class) (w : world) :
  issubclass cls Serializer = true →
  __serializers w !! context = Some registered →
  ts_interface context cls w
  = (World (<[context := registered ++ [cls]]> (__serializers w))
           (files w) (locked w),
     Return cls).
Proof.
  intros Hsub Hknown.
  unfold ts_interface, bind. rewrite Hsub.
  unfold serializers_contains. rewrite Hknown. simpl.
  unfold serializers_append, bind, serializers_getitem,
    serializers_setitem.
  rewrite Hknown. reflexivity.
Qed.

(** *** The field resolver and the renderer under a registered context *)

Lemma process_field_registered (field_name : string) (f : field)
    (context : string) (registered : list class) (w : world) :
  __serializers w !! context = Some registered →
  __process_field field_name f context w
  = (w, Return (field_name, resolved_type registered f)).
Proof.
  intros Hctx.
  unfold __process_field, bind, serializers_getitem.
  rewrite Hctx. reflexivity.
Qed.

Lemma render_fields_registered (fields : list (string * field))
    (context : string) (registered : list class) (w : world) :
  __serializers w !! context = Some registered →
  for_each fields
    (fun kv ts_fields =>
       ts_field <- __process_field kv.1 kv.2 context ;;
       ret (ts_fields ++ [ts_field_line ts_field]))
    [] w
  = (w, Return (map (rendered_line registered) fields)).
Proof.
  intros Hctx.
  rewrite (for_each_pure _ _
             (fun ts_fields kv =>
                ts_fields ++ [rendered_line registered kv])).
  - rewrite foldl_append_line. reflexivity.
  - intros kv acc. unfold bind.
    rewrite (process_field_registered _ _ _ registered) by exact Hctx.
    reflexivity.
Qed.

Lemma get_ts_interface_registered (serializer : class) (context : string)
    (registered : list class) (w : world) :
  __serializers w !! context = Some registered →
  __get_ts_interface serializer context w
  = (w, Return (rendered_block registered serializer)).
Proof.
  intros Hctx.
  unfold __get_ts_interface.
  erewrite bind_Return
    by (apply render_fields_registered; exact Hctx).
  reflexivity.
Qed.

Lemma generate_ts_registered (output_path context : string)
    (registered : list class) (w : world) :
  __serializers w !! context = Some registered →
  output_path ∉ locked w →
  generate_ts output_path context w
  = (World (__serializers w)
           (<[output_path := rendered_text registered]> (files w))
           (locked w),
     Return tt).
Proof.
  intros Hctx Hopen.
  set (opened := World (__serializers w)
                       (<[output_path := EmptyString]> (files w))
                       (locked w)).
  assert (Hopened : open_w output_path w = (opened, Return output_path)).
  { unfold open_w. rewrite bool_decide_eq_false_2 by exact Hopen.
    reflexivity. }
  unfold generate_ts, with_open_w.
  erewrite bind_Return by exact Hopened.
  unfold finally.
  erewrite bind_Return
    by (unfold serializers_getitem; simpl; rewrite Hctx; reflexivity).
  erewrite bind_Return
    by (apply (comprehension_pure _ (rendered_block registered));
        intros serializer; apply get_ts_interface_registered;
        exact Hctx).
  unfold file_write, file_close, ret, opened, rendered_text. simpl.
  rewrite lookup_insert_eq. simpl.
  rewrite insert_insert_eq. reflexivity.
Qed.

Lemma generate_ts_locked (output_path context : string) (w : world) :
  output_path ∈ locked w →
  generate_ts output_path context w = (w, Raise (OSError output_path)).
Proof.
  intros Hlocked.
  unfold generate_ts, with_open_w, bind, open_w.
  rewrite bool_decide_eq_true_2 by exact Hlocked.
  reflexivity.
Qed.

(** Whatever happens, [generate_ts] leaves [__serializers] as it found
    it. *)
Lemma generate_ts_keeps_serializers (output_path context : string)
    (w : world) :
  __serializers (generate_ts output_path context w).1 = __serializers w.
Proof.
  destruct (decide (output_path ∈ locked w)) as [Hlocked | Hopen].
  - rewrite generate_ts_locked by exact Hlocked. reflexivity.
  - destruct (__serializers w !! context) as [registered |] eqn:Hctx.
    + rewrite (generate_ts_registered _ _ registered) by assumption.
      reflexivity.
    + unfold generate_ts, with_open_w, bind, open_w.
      rewrite bool_decide_eq_false_2 by exact Hopen.
      unfold finally, bind, serializers_getitem. simpl.
      rewrite Hctx. reflexivity.
Qed.

(** *** The array marker *)

Lemma append_marker_not_any (ts_type : string) :
  ts_type +:+ "[]" ≠ "any"%string.
Proof.
  destruct ts_type as [|a [|b [|c [|d rest]]]]; simpl; discriminate.
Qed.

Lemma append_marker_changes (ts_type : string) :
  ts_type +:+ "[]" ≠ ts_type.
Proof.
  induction ts_type as [|a rest IH]; simpl.
  - discriminate.
  - intros Heq. apply IH. injection Heq as Hrest. exact Hrest.
Qed.

(** A field with a [child] never resolves to the bare fallback nor to a
    bare class name, whatever the mapping table holds. *)
Lemma process_field_with_child (field_name : string) (f element : field)
    (context : string) (registered : list class) (w : world) :
  __serializers w !! context = Some registered →
  child f = Some element →
  ∃ ts_type : string,
    __process_field field_name f context w
    = (w, Return (field_name, ts_type +:+ "[]"))
    ∧ ts_type +:+ "[]" ≠ "any"%string
    ∧ ts_type +:+ "[]" ≠ ts_type.
Proof.
  intros Hctx Hchild.
  exists (if bool_decide (type_of element ∈ registered)
          then __name__ (type_of element)
          else default "any"%string (mappings !! type_of element)).
  split; [| split].
  - rewrite (process_field_registered _ _ _ registered) by exact Hctx.
    unfold resolved_type, field_type_of, hasattr_child.
    rewrite Hchild. reflexivity.
  - apply append_marker_not_any.
  - apply append_marker_changes.
Qed.

(** *** The documented example *)

Lemma documented_example_text :
  mappings !! IntegerField = Some "number"%string →
  mappings !! CharField = Some "string"%string →
  _declared_fields Foo = [("id"%string, an_integer)] →
  _declared_fields Bar
    = [("foo"%string, a_foo); ("tags"%string, a_char_list)] →
  rendered_text [Foo; Bar] = example_text.
Proof.
  intros Hint Hchar HFoo HBar.
  unfold rendered_text, rendered_block, enumerated_fields. simpl map.
  change (issubclass Foo ModelSerializer) with false.
  change (issubclass Bar ModelSerializer) with false.
  cbv iota. rewrite HFoo, HBar.
  unfold rendered_line, resolved_type. simpl map.
  change (field_type_of an_integer) with IntegerField.
  change (field_type_of a_foo) with Foo.
  change (field_type_of a_char_list) with CharField.
  rewrite Hint, Hchar.
  vm_compute. reflexivity.
Qed.

(** C1. Registering [Foo] (one integer field [id]) and then [Bar] (a
    field [foo] holding a [Foo] and a field [tags] holding a list of
    strings) under [default], in a process where [default] has no
    registration yet, and generating [default] into a file that can be
    opened, leaves exactly the documented text in that file.  The two
    rows of the mapping table and the declared fields of the two classes
    are the premises. *)
Theorem generate_ts_documented_example (output_path : string)
    (w : world) :
  mappings !! IntegerField = Some "number"%string →
  mappings !! CharField = Some "string"%string →
  _declared_fields Foo = [("id"%string, an_integer)] →
  _declared_fields Bar
    = [("foo"%string, a_foo); ("tags"%string, a_char_list)] →
  __serializers w !! "default"%string = None →
  output_path ∉ locked w →
  ∃ w' : world,
    (_ <- ts_interface "default" Foo ;;
     _ <- ts_interface "default" Bar ;;
     generate_ts output_path "default") w = (w', Return tt)
    ∧ files w' !! output_path = Some example_text.
Proof.
  intros Hint Hchar HFoo HBar Hfresh Hopen.
  erewrite bind_Return
    by (apply ts_interface_new_context; [reflexivity | exact Hfresh]).
  erewrite bind_Return
    by (apply (ts_interface_known_context _ _ [Foo]);
        [reflexivity | simpl; apply lookup_insert_eq]).
  rewrite (generate_ts_registered _ _ [Foo; Bar]);
    [| simpl; apply lookup_insert_eq | exact Hopen].
  eexists. split; [reflexivity |].
  simpl. rewrite lookup_insert_eq.
  f_equal. apply documented_example_text; assumption.
Qed.

(** C2, as the code has it.  Generating a context that was never
    registered, into a file that can be opened, raises [KeyError] for
    that context and writes no text; the registry and every other file
    stay as they were.  The output file itself was opened for writing
    before the lookup: it exists afterwards and is empty. *)
Theorem generate_ts_unregistered_context (output_path context : string)
    (w : world) :
  __serializers w !! context = None →
  output_path ∉ locked w →
  generate_ts output_path context w
  = (World (__serializers w)
           (<[output_path := EmptyString]> (files w))
           (locked w),
     Raise (KeyError context)).
Proof.
  intros Hmissing Hopen.
  unfold generate_ts, with_open_w.
  erewrite bind_Return
    by (unfold open_w; rewrite bool_decide_eq_false_2 by exact Hopen;
        reflexivity).
  unfold finally.
  erewrite bind_Raise
    by (unfold serializers_getitem; simpl; rewrite Hmissing;
        reflexivity).
  reflexivity.
Qed.

(** C3. Under a registered context, a field whose element class is
    neither in the list of that context nor a key of the mapping table
    resolves, without an exception, to ["any"], or to ["any[]"] when the
    field has a [child]. *)
Theorem process_field_unmapped_is_any (field_name : string) (f : field)
    (context : string) (registered : list class) (w : world) :
  __serializers w !! context = Some registered →
  field_type_of f ∉ registered →
  mappings !! field_type_of f = None →
  __process_field field_name f context w
  = (w, Return (field_name,
                if hasattr_child f then "any[]"%string
                else "any"%string)).
Proof.
  intros Hctx Hout Hunmapped.
  rewrite (process_field_registered _ _ _ registered) by exact Hctx.
  unfold resolved_type.
  rewrite bool_decide_eq_false_2 by exact Hout.
  rewrite Hunmapped. simpl.
  destruct (hasattr_child f); reflexivity.
Qed.

(** C4, as the code has it.  Let [A] and [B] be registered in the same
    context and let the [i]-th field of [A] have element class [B].
    Then the field resolves to the [__name__] of [B], followed by ["[]"]
    when the field has a [child], and this is the type on the [i]-th
    line of the block rendered for [A].  Membership is identity: a class
    that is not in the list of the context is resolved through the
    mapping table even when it carries the same [__name__] as [B]. *)
Theorem cross_reference_resolves_to_name (A B : class) (i : nat)
    (field_name : string) (f : field) (context : string)
    (registered : list class) (w : world) :
  __serializers w !! context = Some registered →
  A ∈ registered →
  B ∈ registered →
  enumerated_fields A !! i = Some (field_name, f) →
  field_type_of f = B →
  let ts_type :=
    if hasattr_child f then __name__ B +:+ "[]" else __name__ B in
  __process_field field_name f context w
  = (w, Return (field_name, ts_type))
  ∧ (∃ lines : list string,
       __get_ts_interface A context w
       = (w, Return ("export interface " +:+ __name__ A +:+ " {" +:+ nl
                     +:+ join nl lines +:+ nl +:+ "}" +:+ nl +:+ nl))
       ∧ lines !! i
         = Some ("    " +:+ field_name +:+ ": " +:+ ts_type +:+ ";"))
  ∧ (∀ (B' : class) (g : field),
       __name__ B' = __name__ B →
       B' ∉ registered →
       field_type_of g = B' →
       __process_field field_name g context w
       = (w, Return (field_name,
                     if hasattr_child g
                     then default "any"%string (mappings !! B') +:+ "[]"
                     else default "any"%string (mappings !! B')))).
Proof.
  intros Hctx _ HB Hfield Hkind ts_type.
  assert (Hresolved : resolved_type registered f = ts_type).
  { unfold resolved_type, ts_type. rewrite Hkind.
    rewrite bool_decide_eq_true_2 by exact HB. reflexivity. }
  split; [| split].
  - rewrite (process_field_registered _ _ _ registered) by exact Hctx.
    rewrite Hresolved. reflexivity.
  - exists (map (rendered_line registered) (enumerated_fields A)).
    split.
    + apply get_ts_interface_registered. exact Hctx.
    + rewrite list_lookup_fmap, Hfield. simpl.
      unfold rendered_line, ts_field_line. simpl.
      rewrite Hresolved. reflexivity.
  - intros B' g _ Hout Hg.
    rewrite (process_field_registered _ _ _ registered) by exact Hctx.
    unfold resolved_type. rewrite Hg.
    rewrite bool_decide_eq_false_2 by exact Hout. reflexivity.
Qed.

(** C5, as the code has it.  Let [B] be registered under some context but
    not under the one being generated, and let [B] be no key of the
    mapping table.  A field whose element class is [B] resolves under the
    generated context to the fallback ["any"], followed by ["[]"] when
    the field has a [child]: the list of the other context is never
    consulted. *)
Theorem foreign_context_resolves_to_any (B : class) (field_name : string)
    (f : field) (context other : string)
    (registered elsewhere : list class) (w : world) :
  __serializers w !! context = Some registered →
  __serializers w !! other = Some elsewhere →
  other ≠ context →
  B ∈ elsewhere →
  B ∉ registered →
  mappings !! B = None →
  field_type_of f = B →
  __process_field field_name f context w
  = (w, Return (field_name,
                if hasattr_child f then "any[]"%string
                else "any"%string)).
Proof.
  intros Hctx _ _ _ Hout Hunmapped Hkind.
  unfold __process_field.
  erewrite bind_Return
    by (unfold serializers_getitem; rewrite Hctx; reflexivity).
  rewrite Hkind.
  rewrite bool_decide_eq_false_2 by exact Hout.
  rewrite Hunmapped. simpl.
  destruct (hasattr_child f); reflexivity.
Qed.

(** C6. Under a registered context, a field [f] that has a [child]
    resolves to the type that a field [g] without [child] and of the
    child's class resolves to, followed by ["[]"]. *)
Theorem array_field_appends_marker (field_name : string)
    (f element g : field) (context : string) (registered : list class)
    (w : world) :
  __serializers w !! context = Some registered →
  child f = Some element →
  child g = None →
  type_of g = type_of element →
  ∃ ts_type : string,
    __process_field field_name g context w
    = (w, Return (field_name, ts_type))
    ∧ __process_field field_name f context w
      = (w, Return (field_name, ts_type +:+ "[]")).
Proof.
  intros Hctx Hf Hg Hsame.
  exists (resolved_type registered g).
  split.
  - apply process_field_registered. exact Hctx.
  - rewrite (process_field_registered _ _ _ registered) by exact Hctx.
    unfold resolved_type, field_type_of, hasattr_child.
    rewrite Hf, Hg, Hsame. reflexivity.
Qed.

(** C7. For a serializer [T] registered in a context, with [fields] the
    field list the renderer enumerates, the rendered block is
    [export interface T {], then one line per field joined by line
    feeds, then [}] and an empty line.  There are as many lines as
    fields, and the [i]-th line is four spaces, the name of the [i]-th
    field, a colon and a space, the type [__process_field] gives that
    field, and a semicolon. *)
Theorem get_ts_interface_one_line_per_field (T : class)
    (context : string) (registered : list class)
    (fields : list (string * field)) (w : world) :
  __serializers w !! context = Some registered →
  T ∈ registered →
  fields = (if issubclass T ModelSerializer
            then get_fields (instantiate T)
            else _declared_fields T) →
  ∃ lines : list string,
    length lines = length fields
    ∧ (∀ (i : nat) (field_name : string) (f : field),
         fields !! i = Some (field_name, f) →
         ∃ ts_type : string,
           __process_field field_name f context w
           = (w, Return (field_name, ts_type))
           ∧ lines !! i
             = Some ("    " +:+ field_name +:+ ": " +:+ ts_type
                     +:+ ";"))
    ∧ __get_ts_interface T context w
      = (w, Return ("export interface " +:+ __name__ T +:+ " {" +:+ nl
                    +:+ join nl lines +:+ nl +:+ "}" +:+ nl +:+ nl)).
Proof.
  intros Hctx _ Hfields.
  exists (map (rendered_line registered) fields).
  split; [apply length_map |].
  split.
  - intros i field_name f Hi.
    exists (resolved_type registered f). split.
    + apply process_field_registered. exact Hctx.
    + rewrite list_lookup_fmap, Hi. reflexivity.
  - rewrite (get_ts_interface_registered _ _ registered) by exact Hctx.
    unfold rendered_block, enumerated_fields. rewrite <- Hfields.
    reflexivity.
Qed.

(** C8. For a serializer [S] registered in a context: when [S] is a
    subclass of [ModelSerializer] the block lists the fields that
    [get_fields] returns on a fresh instance of [S]; otherwise it lists
    the [_declared_fields] of the class [S]. *)
Theorem get_ts_interface_field_source (S : class) (context : string)
    (registered : list class) (w : world) :
  __serializers w !! context = Some registered →
  S ∈ registered →
  (issubclass S ModelSerializer = true →
   __get_ts_interface S context w
   = (w, Return (ts_block (__name__ S)
                   (join nl (map (rendered_line registered)
                                 (get_fields (instantiate S)))))))
  ∧ (issubclass S ModelSerializer = false →
     __get_ts_interface S context w
     = (w, Return (ts_block (__name__ S)
                     (join nl (map (rendered_line registered)
                                   (_declared_fields S)))))).
Proof.
  intros Hctx _.
  split; intros Hsub;
    rewrite (get_ts_interface_registered _ _ registered) by exact Hctx;
    unfold rendered_block, enumerated_fields; rewrite Hsub; reflexivity.
Qed.

(** C9. With a context registered, two calls of [generate_ts] in a row
    for that context both return, write the same text (each into its
    output file), and leave [__serializers] as it was. *)
Theorem generate_ts_twice_same_text (path1 path2 context : string)
    (registered : list class) (w : world) :
  __serializers w !! context = Some registered →
  path1 ∉ locked w →
  path2 ∉ locked w →
  ∃ (text : string) (w1 w2 : world),
    generate_ts path1 context w = (w1, Return tt)
    ∧ generate_ts path2 context w1 = (w2, Return tt)
    ∧ files w1 !! path1 = Some text
    ∧ files w2 !! path2 = Some text
    ∧ __serializers w1 = __serializers w
    ∧ __serializers w2 = __serializers w.
Proof.
  intros Hctx Hopen1 Hopen2.
  exists (rendered_text registered).
  eexists. eexists.
  split; [apply (generate_ts_registered _ _ registered); assumption |].
  split; [apply (generate_ts_registered _ _ registered); assumption |].
  simpl. rewrite !lookup_insert_eq. repeat split.
Qed.

(** C10. Decorating a class that is not a subclass of [Serializer]
    returns the class and leaves the world, [__serializers] included, as
    it was. *)
Theorem ts_interface_skips_other_classes (context : string) (C : class)
    (w : world) :
  issubclass C Serializer = false →
  ts_interface context C w = (w, Return C).
Proof.
  intros Hsub.
  unfold ts_interface, bind. rewrite Hsub. reflexivity.
Qed.


(** ** Further properties of the module *)

(** *** Strings and joins *)

Lemma append_assoc (a b c : string) : (a +:+ b) +:+ c = a +:+ b +:+ c.
Proof.
  induction a as [|x a IH].
  - reflexivity.
  - change (String x ((a +:+ b) +:+ c) = String x (a +:+ b +:+ c)).
    rewrite IH. reflexivity.
Qed.

Lemma join_empty_snoc (parts : list string) (p : string) :
  join EmptyString (parts ++ [p]) = join EmptyString parts +:+ p.
Proof.
  induction parts as [|x rest IH].
  - reflexivity.
  - destruct rest as [|y rest].
    + reflexivity.
    + change (join EmptyString ((x :: y :: rest) ++ [p]))
        with (x +:+ join EmptyString ((y :: rest) ++ [p])).
      rewrite IH.
      change (join EmptyString (x :: y :: rest))
        with (x +:+ join EmptyString (y :: rest)).
      symmetry. apply append_assoc.
Qed.

(** *** Resolution looks at membership only *)

Lemma resolved_type_members (l l' : list class) (f : field) :
  (∀ x, x ∈ l ↔ x ∈ l') →
  resolved_type l f = resolved_type l' f.
Proof.
  intros Hsame. unfold resolved_type.
  rewrite (bool_decide_ext _ _ (Hsame (field_type_of f))). reflexivity.
Qed.

Lemma rendered_block_members (l l' : list class) (serializer : class) :
  (∀ x, x ∈ l ↔ x ∈ l') →
  rendered_block l serializer = rendered_block l' serializer.
Proof.
  intros Hsame. unfold rendered_block. do 2 f_equal.
  apply map_ext. intros kv. unfold rendered_line.
  rewrite (resolved_type_members l l') by exact Hsame. reflexivity.
Qed.

(** *** What one call does to the world *)

Lemma ts_interface_run (context : string) (cls : class) (w : world) :
  ts_interface context cls w
  = (World (if issubclass cls Serializer
            then <[context := default [] (__serializers w !! context)
                              ++ [cls]]> (__serializers w)
            else __serializers w)
           (files w) (locked w),
     Return cls).
Proof.
  destruct (issubclass cls Serializer) eqn:Hsub.
  - destruct (__serializers w !! context) as [registered |] eqn:Hctx.
    + apply ts_interface_known_context; assumption.
    + apply ts_interface_new_context; assumption.
  - unfold ts_interface, bind. rewrite Hsub. destruct w; reflexivity.
Qed.

Lemma generate_ts_run (output_path context : string) (w : world) :
  generate_ts output_path context w
  = if bool_decide (output_path ∈ locked w)
    then (w, Raise (OSError output_path))
    else match __serializers w !! context with
         | Some registered =>
             (World (__serializers w)
                    (<[output_path := rendered_text registered]> (files w))
                    (locked w),
              Return tt)
         | None =>
             (World (__serializers w)
                    (<[output_path := EmptyString]> (files w))
                    (locked w),
              Raise (KeyError context))
         end.
Proof.
  case_bool_decide as Hlocked.
  - apply generate_ts_locked. exact Hlocked.
  - destruct (__serializers w !! context) as [registered |] eqn:Hctx.
    + apply generate_ts_registered; assumption.
    + unfold generate_ts, with_open_w, bind, open_w.
      rewrite bool_decide_eq_false_2 by exact Hlocked.
      unfold finally, bind, serializers_getitem. simpl.
      rewrite Hctx. reflexivity.
Qed.

(** *** Registration *)

(** X1. The decorator never raises and always hands the class back.  For a
    subclass of [Serializer] the class is appended to the end of the list
    of its context (a list that starts empty when the context is new); no
    other context, and no file, is changed. *)
Theorem ts_interface_appends_to_context (context : string) (cls : class)
    (w : world) :
  ∃ w' : world,
    ts_interface context cls w = (w', Return cls)
    ∧ (issubclass cls Serializer = true →
       __serializers w' !! context
       = Some (default [] (__serializers w !! context) ++ [cls]))
    ∧ (∀ other : string,
         other ≠ context →
         __serializers w' !! other = __serializers w !! other)
    ∧ files w' = files w
    ∧ locked w' = locked w.
Proof.
  eexists. split; [apply ts_interface_run |].
  cbn [__serializers files locked]. repeat split.
  - intros Hsub. rewrite Hsub. apply lookup_insert_eq.
  - intros other Hother.
    destruct (issubclass cls Serializer); [| reflexivity].
    apply lookup_insert_ne. congruence.
Qed.

(** X2. The decorator keeps the dictionary well shaped: when no context
    holds an empty list and every registered class is a subclass of
    [Serializer], the same is true after decorating any class under any
    context. *)
Theorem ts_interface_keeps_registry_ok (context : string) (cls : class)
    (w : world) :
  registry_ok (__serializers w) →
  registry_ok (__serializers (ts_interface context cls w).1).
Proof.
  intros Hok. rewrite ts_interface_run. cbn [fst __serializers].
  destruct (issubclass cls Serializer) eqn:Hsub; [| exact Hok].
  intros c l Hl.
  destruct (decide (context = c)) as [-> | Hne].
  - rewrite lookup_insert_eq in Hl. injection Hl as <-.
    split.
    + intros Hnil. apply app_eq_nil in Hnil. destruct Hnil as [_ Hnil].
      discriminate Hnil.
    + apply Forall_app. split.
      * destruct (__serializers w !! c) as [old |] eqn:Hold; simpl.
        -- apply (Hok c old Hold).
        -- constructor.
      * constructor; [exact Hsub | constructor].
  - rewrite lookup_insert_ne in Hl by exact Hne.
    apply (Hok c l Hl).
Qed.

(** *** Generation *)

(** X3. Whatever the outcome, [generate_ts] changes nothing but the file at
    [output_path]: the dictionary, the set of paths that cannot be opened
    and every other file are as before. *)
Theorem generate_ts_only_touches_output (output_path context : string)
    (w : world) :
  __serializers (generate_ts output_path context w).1 = __serializers w
  ∧ locked (generate_ts output_path context w).1 = locked w
  ∧ (∀ other : string,
       other ≠ output_path →
       files (generate_ts output_path context w).1 !! other
       = files w !! other).
Proof.
  rewrite generate_ts_run.
  case_bool_decide; [repeat split |].
  destruct (__serializers w !! context); simpl;
    (repeat split; intros other Hother; apply lookup_insert_ne; congruence).
Qed.

(** X4. When the output file cannot be opened, [generate_ts] raises
    [OSError] and leaves the world as it was, whether or not the context is
    registered: the file is opened before the context is looked up. *)
Theorem generate_ts_open_failure_comes_first (output_path : string)
    (w : world) :
  output_path ∈ locked w →
  ∀ context : string,
    generate_ts output_path context w = (w, Raise (OSError output_path)).
Proof.
  intros Hlocked context.
  rewrite generate_ts_run.
  rewrite bool_decide_eq_true_2 by exact Hlocked. reflexivity.
Qed.




(** X8. Decorating a class that is already registered under the context
    changes the generated text in one way only: one more copy of the block
    of that class is appended at the end. *)
Theorem registering_again_appends_a_block (cls : class)
    (output_path context : string) (registered : list class) (w : world) :
  __serializers w !! context = Some registered →
  cls ∈ registered →
  issubclass cls Serializer = true →
  output_path ∉ locked w →
  ∃ (text block : string) (w1 w2 w3 : world),
    generate_ts output_path context w = (w1, Return tt)
    ∧ files w1 !! output_path = Some text
    ∧ __get_ts_interface cls context w = (w, Return block)
    ∧ ts_interface context cls w1 = (w2, Return cls)
    ∧ generate_ts output_path context w2 = (w3, Return tt)
    ∧ files w3 !! output_path = Some (text +:+ block).
Proof.
  intros Hctx Hin Hsub Hopen.
  assert (Hsame : ∀ x, x ∈ registered ++ [cls] ↔ x ∈ registered).
  { intros x. rewrite elem_of_app, list_elem_of_singleton.
    split; [intros [Hx | ->]; assumption | auto]. }
  exists (rendered_text registered), (rendered_block registered cls).
  do 3 eexists.
  split; [apply (generate_ts_registered _ _ registered); assumption |].
  split; [simpl; apply lookup_insert_eq |].
  split; [apply get_ts_interface_registered; exact Hctx |].
  split; [apply (ts_interface_known_context _ _ registered);
          [exact Hsub | exact Hctx] |].
  split.
  - apply (generate_ts_registered _ _ (registered ++ [cls]));
      [simpl; apply lookup_insert_eq | exact Hopen].
  - simpl. rewrite lookup_insert_eq. f_equal.
    unfold rendered_text. rewrite map_app. simpl.
    rewrite join_empty_snoc.
    rewrite (rendered_block_members _ registered) by exact Hsame.
    f_equal. f_equal.
    apply map_ext. intros serializer.
    apply rendered_block_members. exact Hsame.
Qed.

(** X9. Decorating a class under another context does not change what is
    generated for this one. *)
Theorem other_context_registration_is_invisible (cls : class)
    (output_path context other : string) (registered : list class)
    (w : world) :
  __serializers w !! context = Some registered →
  other ≠ context →
  output_path ∉ locked w →
  ∃ (text : string) (w1 w2 w3 : world),
    generate_ts output_path context w = (w1, Return tt)
    ∧ files w1 !! output_path = Some text
    ∧ ts_interface other cls w = (w2, Return cls)
    ∧ generate_ts output_path context w2 = (w3, Return tt)
    ∧ files w3 !! output_path = Some text.
Proof.
  intros Hctx Hother Hopen.
  exists (rendered_text registered). do 3 eexists.
  split; [apply (generate_ts_registered _ _ registered); assumption |].
  split; [simpl; apply lookup_insert_eq |].
  split; [apply ts_interface_run |].
  split.
  - apply (generate_ts_registered _ _ registered); [| exact Hopen].
    cbn [__serializers].
    destruct (issubclass cls Serializer); [| exact Hctx].
    rewrite lookup_insert_ne by exact Hother. exact Hctx.
  - simpl. apply lookup_insert_eq.
Qed.

(** *** The renderer and the field resolver *)

(** X10. The order of registration does not change a block: when two
    worlds list the same classes under the context in different orders, a
    serializer is rendered to the same text in both.  In particular a field
    may refer to a class that was registered later. *)
Theorem render_ignores_registration_order (serializer : class)
    (context : string) (registered registered' : list class)
    (w w' : world) :
  __serializers w !! context = Some registered →
  __serializers w' !! context = Some registered' →
  registered ≡ₚ registered' →
  ∃ block : string,
    __get_ts_interface serializer context w = (w, Return block)
    ∧ __get_ts_interface serializer context w' = (w', Return block).
Proof.
  intros Hctx Hctx' Hperm.
  exists (rendered_block registered serializer). split.
  - apply get_ts_interface_registered. exact Hctx.
  - rewrite (rendered_block_members registered registered').
    + apply get_ts_interface_registered. exact Hctx'.
    + intros x. rewrite Hperm. reflexivity.
Qed.

(** X11. A serializer without fields is rendered without looking at the
    dictionary: under any context, registered or not, the block is the
    header, an empty line and the closing brace. *)
Theorem get_ts_interface_without_fields (serializer : class)
    (context : string) (w : world) :
  (if issubclass serializer ModelSerializer
   then get_fields (instantiate serializer)
   else _declared_fields serializer) = [] →
  __get_ts_interface serializer context w
  = (w, Return ("export interface " +:+ __name__ serializer +:+ " {"
                +:+ nl +:+ nl +:+ "}" +:+ nl +:+ nl)).
Proof.
  intros Hnone. unfold __get_ts_interface. rewrite Hnone. reflexivity.
Qed.

(** X12. Under a context that was never registered, rendering a serializer
    that has at least one field raises [KeyError] for the context and
    leaves the world as it was. *)
Theorem get_ts_interface_unregistered_context (serializer : class)
    (context : string) (w : world) :
  __serializers w !! context = None →
  (if issubclass serializer ModelSerializer
   then get_fields (instantiate serializer)
   else _declared_fields serializer) ≠ [] →
  __get_ts_interface serializer context w = (w, Raise (KeyError context)).
Proof.
  intros Hmissing Hsome. unfold __get_ts_interface.
  destruct (if issubclass serializer ModelSerializer
            then get_fields (instantiate serializer)
            else _declared_fields serializer) as [|kv rest];
    [congruence |].
  apply bind_Raise. cbn [for_each].
  apply bind_Raise. apply bind_Raise.
  unfold __process_field. apply bind_Raise.
  unfold serializers_getitem. rewrite Hmissing. reflexivity.
Qed.

(** X13. Under a registered context, a field whose element class is not in
    the list of the context but is a key of the mapping table resolves to
    the entry of the table, followed by ["[]"] when the field has a
    [child]. *)
Theorem process_field_mapped_kind (field_name : string) (f : field)
    (context : string) (registered : list class) (ts_type : string)
    (w : world) :
  __serializers w !! context = Some registered →
  field_type_of f ∉ registered →
  mappings !! field_type_of f = Some ts_type →
  __process_field field_name f context w
  = (w, Return (field_name,
                if hasattr_child f then ts_type +:+ "[]" else ts_type)).
Proof.
  intros Hctx Hout Hmapped.
  unfold __process_field.
  erewrite bind_Return
    by (unfold serializers_getitem; rewrite Hctx; reflexivity).
  rewrite bool_decide_eq_false_2 by exact Hout.
  rewrite Hmapped. reflexivity.
Qed.

(** X14. Only one level of [child] is looked at.  Under a registered
    context, a field whose child has a child of its own resolves like the
    same field with the inner child removed, and the class of the outer
    field plays no part. *)
Theorem process_field_ignores_grandchild (field_name : string)
    (outer outer' middle : class) (inner : field) (context : string)
    (registered : list class) (w : world) :
  __serializers w !! context = Some registered →
  ∃ ts_type : string,
    __process_field field_name
      (Field outer (Some (Field middle (Some inner)))) context w
    = (w, Return (field_name, ts_type +:+ "[]"))
    ∧ __process_field field_name
        (Field outer' (Some (Field middle None))) context w
      = (w, Return (field_name, ts_type +:+ "[]"))
    ∧ __process_field field_name (Field middle None) context w
      = (w, Return (field_name, ts_type)).
Proof.
  intros Hctx.
  exists (resolved_type registered (Field middle None)).
  repeat split;
    rewrite (process_field_registered _ _ _ registered) by exact Hctx;
    reflexivity.
Qed.


End Typomatic.

(** ** The properties on the sample classes *)

Ltac by_evaluation :=
  first [ reflexivity
        | discriminate
        | vm_compute; reflexivity
        | refine (bool_decide_eq_true_1 _ _); vm_compute; reflexivity
        | refine (bool_decide_eq_false_1 _ _); vm_compute; reflexivity ].

(** A class object that merely shares the name of a registered class is
    not taken for it. *)
Example same_name_other_object :
  __name__ OtherFoo = __name__ Foo
  ∧ __process_field sample_mappings "foo" (Field OtherFoo None) "default"
      sample_world
    = (sample_world, Return ("foo"%string, "any"%string)).
Proof. split; vm_compute; reflexivity. Qed.

Lemma generate_ts_documented_example_witness :
  __serializers fresh_world !! "default"%string = None
  ∧ ∃ w' : world,
      (_ <- ts_interface "default" Foo ;;
       _ <- ts_interface "default" Bar ;;
       generate_ts sample_mappings sample_declared_fields sample_get_fields
         "out.ts" "default") fresh_world = (w', Return tt)
      ∧ files w' !! "out.ts"%string = Some example_text.
Proof.
  split; [by_evaluation |].
  apply (generate_ts_documented_example sample_mappings
           sample_declared_fields sample_get_fields "out.ts" fresh_world);
    by_evaluation.
Defined.

(** C2 fails as stated: generating the unregistered context [staging]
    raises [KeyError], yet the existing file [out.ts] has lost its content,
    and generating into [new.ts], which did not exist, has created it. *)
Lemma generate_ts_unregistered_touches_file :
  let generate :=
    generate_ts sample_mappings sample_declared_fields sample_get_fields in
  __serializers sample_world !! "staging"%string = None
  ∧ (generate "out.ts" "staging" sample_world).2
    = Raise (KeyError "staging")
  ∧ files sample_world !! "out.ts"%string = Some "// stale"%string
  ∧ files (generate "out.ts" "staging" sample_world).1 !! "out.ts"%string
    = Some EmptyString
  ∧ files sample_world !! "new.ts"%string = None
  ∧ files (generate "new.ts" "staging" sample_world).1 !! "new.ts"%string
    = Some EmptyString.
Proof. repeat split; vm_compute; reflexivity. Qed.

Lemma generate_ts_unregistered_context_witness :
  __serializers sample_world !! "staging"%string = None
  ∧ generate_ts sample_mappings sample_declared_fields sample_get_fields
      "out.ts" "staging" sample_world
    = (World (__serializers sample_world)
             (<["out.ts"%string := EmptyString]> (files sample_world))
             (locked sample_world),
       Raise (KeyError "staging")).
Proof.
  split; [by_evaluation |].
  apply (generate_ts_unregistered_context sample_mappings
           sample_declared_fields sample_get_fields "out.ts" "staging"
           sample_world);
    by_evaluation.
Defined.

Lemma process_field_unmapped_is_any_witness :
  sample_mappings !! ColorField = None
  ∧ __process_field sample_mappings "tint" a_color "default" sample_world
    = (sample_world, Return ("tint"%string, "any"%string)).
Proof.
  split; [by_evaluation |].
  apply (process_field_unmapped_is_any sample_mappings "tint" a_color
           "default" [Foo; Bar; Baz; Account] sample_world);
    by_evaluation.
Defined.

(** C4 fails as stated on a field with a [child]: [Baz] and [Foo] are
    registered under [default], the field [foos] of [Baz] is
    [Foo(many=True)], and it is rendered with the type [Foo[]], which is
    not the name of [Foo]. *)
Lemma cross_reference_many_is_not_the_name :
  __serializers sample_world !! "default"%string
  = Some [Foo; Bar; Baz; Account]
  ∧ sample_declared_fields Baz = [("foos"%string, many_foo)]
  ∧ field_type_of many_foo = Foo
  ∧ __process_field sample_mappings "foos" many_foo "default" sample_world
    = (sample_world, Return ("foos"%string, "Foo[]"%string))
  ∧ (__get_ts_interface sample_mappings sample_declared_fields
       sample_get_fields Baz "default" sample_world).2
    = Return ("export interface Baz {" +:+ nl +:+ "    foos: Foo[];" +:+ nl
              +:+ "}" +:+ nl +:+ nl)
  ∧ "Foo[]"%string ≠ __name__ Foo.
Proof.
  repeat split; try (vm_compute; reflexivity).
  discriminate.
Qed.

Lemma cross_reference_resolves_to_name_witness :
  enumerated_fields sample_declared_fields sample_get_fields Bar !! 0
  = Some ("foo"%string, a_foo)
  ∧ __process_field sample_mappings "foo" a_foo "default" sample_world
    = (sample_world, Return ("foo"%string, "Foo"%string)).
Proof.
  split; [by_evaluation |].
  apply (cross_reference_resolves_to_name sample_mappings
           sample_declared_fields sample_get_fields Bar Foo 0 "foo" a_foo
           "default" [Foo; Bar; Baz; Account] sample_world);
    by_evaluation.
Defined.

(** C5 fails as stated on a field with a [child]: [Qux] is registered
    under [other] only and is no key of the table, and [Qux(many=True)]
    resolves under [default] to [any[]], not to [any]. *)
Lemma foreign_context_many_is_not_any :
  __serializers sample_world !! "other"%string = Some [Qux]
  ∧ __serializers sample_world !! "default"%string
    = Some [Foo; Bar; Baz; Account]
  ∧ (Qux ∉ [Foo; Bar; Baz; Account])
  ∧ sample_mappings !! Qux = None
  ∧ field_type_of many_qux = Qux
  ∧ __process_field sample_mappings "quxes" many_qux "default" sample_world
    = (sample_world, Return ("quxes"%string, "any[]"%string))
  ∧ "any[]"%string ≠ "any"%string.
Proof.
  repeat split; try (vm_compute; reflexivity).
  - refine (bool_decide_eq_false_1 _ _). vm_compute. reflexivity.
  - discriminate.
Qed.

Lemma foreign_context_resolves_to_any_witness :
  Qux ∈ [Qux]
  ∧ (Qux ∉ [Foo; Bar; Baz; Account])
  ∧ __process_field sample_mappings "qux" a_qux "default" sample_world
    = (sample_world, Return ("qux"%string, "any"%string)).
Proof.
  split; [by_evaluation |].
  split; [by_evaluation |].
  apply (foreign_context_resolves_to_any sample_mappings Qux "qux" a_qux
           "default" "other" [Foo; Bar; Baz; Account] [Qux] sample_world);
    by_evaluation.
Defined.

Lemma array_field_appends_marker_witness :
  ∃ ts_type : string,
    __process_field sample_mappings "tags" a_char "default" sample_world
    = (sample_world, Return ("tags"%string, ts_type))
    ∧ __process_field sample_mappings "tags" a_char_list "default"
        sample_world
      = (sample_world, Return ("tags"%string, ts_type +:+ "[]")).
Proof.
  apply (array_field_appends_marker sample_mappings "tags" a_char_list
           a_char a_char "default" [Foo; Bar; Baz; Account] sample_world);
    by_evaluation.
Defined.

Lemma get_ts_interface_one_line_per_field_witness :
  Bar ∈ [Foo; Bar; Baz; Account]
  ∧ ∃ lines : list string,
      length lines = 2
      ∧ __get_ts_interface sample_mappings sample_declared_fields
          sample_get_fields Bar "default" sample_world
        = (sample_world,
           Return ("export interface " +:+ __name__ Bar +:+ " {" +:+ nl
                   +:+ join nl lines +:+ nl +:+ "}" +:+ nl +:+ nl)).
Proof.
  split; [by_evaluation |].
  destruct (get_ts_interface_one_line_per_field sample_mappings
              sample_declared_fields sample_get_fields Bar "default"
              [Foo; Bar; Baz; Account]
              [("foo"%string, a_foo); ("tags"%string, a_char_list)]
              sample_world)
    as [lines [Hlen [_ Hblock]]]; [by_evaluation ..|].
  exists lines. split; [exact Hlen | exact Hblock].
Defined.

Lemma get_ts_interface_field_source_witness :
  issubclass Account ModelSerializer = true
  ∧ __get_ts_interface sample_mappings sample_declared_fields
      sample_get_fields Account "default" sample_world
    = (sample_world,
       Return (ts_block (__name__ Account)
                 (join nl (map (rendered_line sample_mappings
                                  [Foo; Bar; Baz; Account])
                               (sample_get_fields (instantiate Account)))))).
Proof.
  split; [by_evaluation |].
  apply (get_ts_interface_field_source sample_mappings
           sample_declared_fields sample_get_fields Account "default"
           [Foo; Bar; Baz; Account] sample_world);
    by_evaluation.
Defined.

Lemma generate_ts_twice_same_text_witness :
  ∃ (text : string) (w1 w2 : world),
    generate_ts sample_mappings sample_declared_fields sample_get_fields
      "out.ts" "default" sample_world = (w1, Return tt)
    ∧ generate_ts sample_mappings sample_declared_fields sample_get_fields
        "copy.ts" "default" w1 = (w2, Return tt)
    ∧ files w1 !! "out.ts"%string = Some text
    ∧ files w2 !! "copy.ts"%string = Some text
    ∧ __serializers w1 = __serializers sample_world
    ∧ __serializers w2 = __serializers sample_world.
Proof.
  apply (generate_ts_twice_same_text sample_mappings sample_declared_fields
           sample_get_fields "out.ts" "copy.ts" "default"
           [Foo; Bar; Baz; Account] sample_world);
    by_evaluation.
Defined.

Lemma ts_interface_skips_other_classes_witness :
  issubclass IntegerField Serializer = false
  ∧ ts_interface "default" IntegerField sample_world
    = (sample_world, Return IntegerField).
Proof.
  split; [by_evaluation |].
  apply (ts_interface_skips_other_classes "default" IntegerField
           sample_world);
    by_evaluation.
Defined.

(** ** The further properties on the sample classes *)


Lemma fresh_world_registry_ok : registry_ok (__serializers fresh_world).
Proof.
  intros c l Hl. cbn [__serializers fresh_world] in Hl.
  rewrite lookup_empty in Hl. discriminate Hl.
Qed.

Lemma ts_interface_keeps_registry_ok_witness :
  registry_ok (__serializers fresh_world)
  ∧ registry_ok (__serializers (ts_interface "default" Foo fresh_world).1).
Proof.
  split; [exact fresh_world_registry_ok |].
  apply (ts_interface_keeps_registry_ok "default" Foo fresh_world).
  exact fresh_world_registry_ok.
Defined.

Lemma generate_ts_open_failure_comes_first_witness :
  __serializers sample_world !! "staging"%string = None
  ∧ generate_ts sample_mappings sample_declared_fields sample_get_fields
      "/proc/out.ts" "staging" sample_world
    = (sample_world, Raise (OSError "/proc/out.ts")).
Proof.
  split; [by_evaluation |].
  apply (generate_ts_open_failure_comes_first sample_mappings
           sample_declared_fields sample_get_fields "/proc/out.ts"
           sample_world);
    by_evaluation.
Defined.




Lemma registering_again_appends_a_block_witness :
  Foo ∈ [Foo; Bar; Baz; Account]
  ∧ ∃ (text block : string) (w1 w2 w3 : world),
      generate_ts sample_mappings sample_declared_fields sample_get_fields
        "out.ts" "default" sample_world = (w1, Return tt)
      ∧ files w1 !! "out.ts"%string = Some text
      ∧ __get_ts_interface sample_mappings sample_declared_fields
          sample_get_fields Foo "default" sample_world
        = (sample_world, Return block)
      ∧ ts_interface "default" Foo w1 = (w2, Return Foo)
      ∧ generate_ts sample_mappings sample_declared_fields
          sample_get_fields "out.ts" "default" w2 = (w3, Return tt)
      ∧ files w3 !! "out.ts"%string = Some (text +:+ block).
Proof.
  split; [by_evaluation |].
  apply (registering_again_appends_a_block sample_mappings
           sample_declared_fields sample_get_fields Foo "out.ts" "default"
           [Foo; Bar; Baz; Account] sample_world);
    by_evaluation.
Defined.

Lemma other_context_registration_is_invisible_witness :
  ∃ (text : string) (w1 w2 w3 : world),
    generate_ts sample_mappings sample_declared_fields sample_get_fields
      "out.ts" "default" sample_world = (w1, Return tt)
    ∧ files w1 !! "out.ts"%string = Some text
    ∧ ts_interface "other" Foo sample_world = (w2, Return Foo)
    ∧ generate_ts sample_mappings sample_declared_fields sample_get_fields
        "out.ts" "default" w2 = (w3, Return tt)
    ∧ files w3 !! "out.ts"%string = Some text.
Proof.
  apply (other_context_registration_is_invisible sample_mappings
           sample_declared_fields sample_get_fields Foo "out.ts" "default"
           "other" [Foo; Bar; Baz; Account] sample_world);
    by_evaluation.
Defined.

Lemma render_ignores_registration_order_witness :
  [Foo; Bar; Baz; Account] ≡ₚ [Bar; Foo; Baz; Account]
  ∧ ∃ block : string,
      __get_ts_interface sample_mappings sample_declared_fields
        sample_get_fields Bar "default" sample_world
      = (sample_world, Return block)
      ∧ __get_ts_interface sample_mappings sample_declared_fields
          sample_get_fields Bar "default" reordered_world
        = (reordered_world, Return block).
Proof.
  split; [apply perm_swap |].
  apply (render_ignores_registration_order sample_mappings
           sample_declared_fields sample_get_fields Bar "default"
           [Foo; Bar; Baz; Account] [Bar; Foo; Baz; Account]
           sample_world reordered_world);
    first [by_evaluation | apply perm_swap].
Defined.

Lemma get_ts_interface_without_fields_witness :
  __serializers sample_world !! "staging"%string = None
  ∧ __get_ts_interface sample_mappings sample_declared_fields
      sample_get_fields Empty "staging" sample_world
    = (sample_world,
       Return ("export interface Empty {" +:+ nl +:+ nl +:+ "}" +:+ nl
               +:+ nl)).
Proof.
  split; [by_evaluation |].
  apply (get_ts_interface_without_fields sample_mappings
           sample_declared_fields sample_get_fields Empty "staging"
           sample_world);
    by_evaluation.
Defined.

Lemma get_ts_interface_unregistered_context_witness :
  __get_ts_interface sample_mappings sample_declared_fields
    sample_get_fields Bar "staging" sample_world
  = (sample_world, Raise (KeyError "staging")).
Proof.
  apply (get_ts_interface_unregistered_context sample_mappings
           sample_declared_fields sample_get_fields Bar "staging"
           sample_world);
    by_evaluation.
Defined.

Lemma process_field_mapped_kind_witness :
  __process_field sample_mappings "id" an_integer "default" sample_world
  = (sample_world, Return ("id"%string, "number"%string)).
Proof.
  apply (process_field_mapped_kind sample_mappings "id" an_integer
           "default" [Foo; Bar; Baz; Account] "number" sample_world);
    by_evaluation.
Defined.

Lemma process_field_ignores_grandchild_witness :
  ∃ ts_type : string,
    __process_field sample_mappings "rows" a_char_matrix "default"
      sample_world
    = (sample_world, Return ("rows"%string, ts_type +:+ "[]"))
    ∧ __process_field sample_mappings "rows"
        (Field ListSerializer (Some (Field ListField None))) "default"
        sample_world
      = (sample_world, Return ("rows"%string, ts_type +:+ "[]"))
    ∧ __process_field sample_mappings "rows" (Field ListField None)
        "default" sample_world
      = (sample_world, Return ("rows"%string, ts_type)).
Proof.
  apply (process_field_ignores_grandchild sample_mappings "rows" ListField
           ListSerializer ListField a_char "default"
           [Foo; Bar; Baz; Account] sample_world);
    by_evaluation.
Defined.
